(** * Superfluid documentation site: the site configuration and the
      Distribution Pools page

    The repository's executable surface is [docusaurus.config.ts], a module
    that builds one object literal and exports it, and the MDX page on
    Distribution Pools, which describes how a pool shares a flow among its
    members.  Both are embedded here: the configuration as a JavaScript value
    (objects keep their fields in source order), the page's two-step share
    calculation as functions on integers. *)

From Stdlib Require Import ZArith List String Ascii Bool Lia.
From Stdlib Require Import QArith Qround.
From Stdlib Require Import DecimalString DecimalPos DecimalZ.
Import ListNotations.

Local Close Scope Q_scope.
Local Open Scope list_scope.
Local Open Scope string_scope.

(** ** JavaScript values as the configuration uses them *)

Module Js.

(** The literals that occur in the module: strings, booleans, arrays and
    objects.  An object is the list of its fields in the order the literal
    writes them; no literal of the module repeats a key. *)
#[warnings="-register-all"]
Inductive value : Type :=
| VStr (s : string)
| VBool (b : bool)
| VArr (items : list value)
| VObj (fields : list (string * value)).

(** One step of a property path: [o.k] or [a[i]]. *)
Inductive sel : Type :=
| Key (k : string)
| Idx (i : nat).

Definition path := list sel.

Fixpoint assoc (k : string) (fs : list (string * value)) : option value :=
  match fs with
  | [] => None
  | (k', v) :: rest => if String.eqb k k' then Some v else assoc k rest
  end.

(** [o.k]; [None] stands for [undefined]. *)
Definition get (k : string) (v : value) : option value :=
  match v with
  | VObj fs => assoc k fs
  | _ => None
  end.

Definition step (s : sel) (v : value) : option value :=
  match s, v with
  | Key k, _ => get k v
  | Idx i, VArr xs => nth_error xs i
  | Idx _, _ => None
  end.

Fixpoint get_path (p : path) (v : value) : option value :=
  match p with
  | [] => Some v
  | s :: rest =>
      match step s v with
      | Some w => get_path rest w
      | None => None
      end
  end.

Definition has_key (k : string) (v : value) : bool :=
  match get k v with
  | Some _ => true
  | None => false
  end.

Definition keys (v : value) : list string :=
  match v with
  | VObj fs => map fst fs
  | _ => []
  end.

Definition fields (v : value) : list (string * value) :=
  match v with
  | VObj fs => fs
  | _ => []
  end.

Definition elements (v : value) : list value :=
  match v with
  | VArr xs => xs
  | _ => []
  end.

(** A value that carries data: a non-empty string, array or object, or any
    boolean. *)
Definition nonempty (v : value) : bool :=
  match v with
  | VStr s => negb (String.eqb s "")
  | VBool _ => true
  | VArr xs => negb (Nat.eqb (List.length xs) 0)
  | VObj fs => negb (Nat.eqb (List.length fs) 0)
  end.

Fixpoint set_assoc (k : string) (f : value -> value)
         (fs : list (string * value)) : list (string * value) :=
  match fs with
  | [] => []
  | (k', v) :: rest =>
      if String.eqb k k' then (k', f v) :: rest
      else (k', v) :: set_assoc k f rest
  end.

Fixpoint set_nth (i : nat) (f : value -> value) (xs : list value)
  : list value :=
  match xs, i with
  | [], _ => []
  | x :: rest, O => f x :: rest
  | x :: rest, S j => x :: set_nth j f rest
  end.

(** The object with the value at an existing path replaced; a path that
    leaves the object leaves it as it is. *)
Fixpoint set_path (p : path) (w : value) (v : value) : value :=
  match p with
  | [] => w
  | Key k :: rest =>
      match v with
      | VObj fs => VObj (set_assoc k (set_path rest w) fs)
      | _ => v
      end
  | Idx i :: rest =>
      match v with
      | VArr xs => VArr (set_nth i (set_path rest w) xs)
      | _ => v
      end
  end.

(** [String(n)] for an integral number below 1e21: the decimal digits, with
    a minus sign for a negative one. *)
Definition number_to_string (n : Z) : string :=
  NilZero.string_of_int (Z.to_int n).

Definition str_eqb (v : value) (s : string) : bool :=
  match v with
  | VStr t => String.eqb t s
  | _ => false
  end.

End Js.

Import Js.

(** ** The configuration module *)

Module Site.

Section Config.

(** [prismThemes.github] and [prismThemes.dracula], imported from
    prism-react-renderer. *)
Variables (prismThemes_github prismThemes_dracula : value).

(** [new Date().getFullYear()] at the time the module is evaluated. *)
Variable fullYear : Z.

Definition copyright : string :=
  "Copyright © " ++ number_to_string fullYear
    ++ " Superfluid Finance LTD. Built with Docusaurus.".

Definition docSidebar (sidebarId label : string) : value :=
  VObj [("type", VStr "docSidebar"); ("sidebarId", VStr sidebarId);
        ("position", VStr "left"); ("label", VStr label)].

Definition external (href label : string) : value :=
  VObj [("href", VStr href); ("position", VStr "right");
        ("label", VStr label)].

Definition label_href (label href : string) : value :=
  VObj [("label", VStr label); ("href", VStr href)].

Definition label_to (label to : string) : value :=
  VObj [("label", VStr label); ("to", VStr to)].

Definition edit_url : string :=
  "https://github.com/facebook/docusaurus/tree/main/packages/create-docusaurus/templates/shared/".

Definition presets : value :=
  VArr [VArr [VStr "classic";
    VObj [("docs", VObj [("sidebarPath", VStr "./sidebars.ts");
                         ("editUrl", VStr edit_url)]);
          ("blog", VObj [("showReadingTime", VBool true);
                         ("editUrl", VStr edit_url)]);
          ("theme", VObj [("customCss", VStr "./src/css/custom.css")])]]].

Definition navbar : value :=
  VObj [("title", VStr "Docs");
        ("logo", VObj [("alt", VStr "My Site Logo");
                       ("src", VStr "img/logo-black.svg");
                       ("srcDark", VStr "img/logo.svg")]);
        ("items", VArr [
           docSidebar "Concepts" "Concepts";
           docSidebar "Protocol" "Protocol";
           docSidebar "SDK" "SDK";
           docSidebar "TechnicalReference" "Technical Reference";
           external "https://console.superfluid.finance/" "Console";
           external "https://github.com/superfluid-finance" "Github";
           external "https://discord.gg/pPzPEDMVua" "Discord";
           VObj [("type", VStr "dropdown"); ("label", VStr "Version");
                 ("position", VStr "right");
                 ("items", VArr [
                    label_href "Current" "#";
                    label_href "Legacy" "https://superfluid.gitbook.io/"])]])].

Definition footer : value :=
  VObj [("style", VStr "dark");
        ("links", VArr [
           VObj [("title", VStr "Docs");
                 ("items", VArr [
                    label_to "Concepts" "/docs/concepts/superfluid";
                    label_to "Protocol" "/docs/protocol/quickstart";
                    label_to "SDK" "/docs/sdk/overview";
                    label_to "Technical Reference"
                             "/docs/technical-reference/intro"])];
           VObj [("title", VStr "Community");
                 ("items", VArr [
                    label_href "Github" "https://github.com/superfluid-finance";
                    label_href "Discord" "https://discord.gg/pPzPEDMVua";
                    label_href "X/Twitter"
                      "https://twitter.com/intent/follow?screen_name=Superfluid_HQ"])];
           VObj [("title", VStr "More");
                 ("items", VArr [
                    label_href "About Us" "https://www.superfluid.finance/about";
                    label_href "Blog" "https://www.superfluid.finance/blog";
                    label_href "Terms of Use" "https://www.superfluid.finance/terms";
                    label_href "Privacy Policy"
                      "https://www.iubenda.com/privacy-policy/34415583/legal"])]]);
        ("copyright", VStr copyright)].

Definition algolia : value :=
  VObj [("appId", VStr "O3JEVRIQUM");
        ("apiKey", VStr "8de88a77f0d3ae7ea04ea6e10bd6b52c");
        ("indexName", VStr "v2-omega");
        ("contextualSearch", VBool false);
        ("searchPagePath", VStr "search")].

Definition markprompt : value :=
  VObj [("projectKey", VStr "sk_test_ubCqOlHANKE1H1teDc6ykbIV2asfKklN");
        ("trigger", VObj [("floating", VBool false)]);
        ("search", VObj [
           ("enabled", VBool true);
           ("provider", VObj [
              ("name", VStr "algolia");
              ("apiKey", VStr "8de88a77f0d3ae7ea04ea6e10bd6b52c");
              ("appId", VStr "O3JEVRIQUM");
              ("indexName", VStr "v2-omega")])])].

Definition plugins : value :=
  VArr [VArr [VStr "@saucelabs/theme-github-codeblock"; VObj []];
        VArr [VStr "@docusaurus/plugin-client-redirects";
              VObj [("redirects", VArr [
                 VObj [("to", VStr "/docs/concepts/superfluid");
                       ("from", VStr "/superfluid/protocol-overview/in-depth-overview")]])]]].

Definition themeConfig : value :=
  VObj [("colorMode", VObj [("defaultMode", VStr "dark");
                            ("disableSwitch", VBool false);
                            ("respectPrefersColorScheme", VBool true)]);
        ("image", VStr "img/docusaurus-social-card.png");
        ("navbar", navbar);
        ("footer", footer);
        ("prism", VObj [("theme", prismThemes_github);
                        ("darkTheme", prismThemes_dracula);
                        ("additionalLanguages", VArr [VStr "solidity"])]);
        ("algolia", algolia);
        ("markprompt", markprompt);
        ("plugins", plugins)].

(** [const config: Config = { ... }] *)
Definition config : value :=
  VObj [("title", VStr "Superfluid Docs");
        ("tagline", VStr "Docs but they hyper super fluid");
        ("favicon", VStr "img/favicon.ico");
        ("themes", VArr [VStr "@docusaurus/theme-live-codeblock";
                         VStr "@markprompt/docusaurus-theme-search"]);
        ("url", VStr "https://docs.superfluid.finance/");
        ("baseUrl", VStr "/");
        ("organizationName", VStr "facebook");
        ("projectName", VStr "docusaurus");
        ("onBrokenLinks", VStr "ignore");
        ("onBrokenMarkdownLinks", VStr "warn");
        ("i18n", VObj [("defaultLocale", VStr "en");
                       ("locales", VArr [VStr "en"])]);
        ("presets", presets);
        ("themeConfig", themeConfig)].

End Config.

(** *** Reading the exported object *)

(** The options of the framework's [Config] type (imported at the top of
    the module) that choose what the build does when it meets a failure:
    throw, warn, log or ignore. *)
Definition failure_policy_fields : list string :=
  ["onBrokenLinks"; "onBrokenAnchors"; "onBrokenMarkdownLinks";
   "onDuplicateRoutes"].

Definition is_failure_policy (k : string) : bool :=
  existsb (String.eqb k) failure_policy_fields.

Definition no_failure_policy (cfg : value) : Prop :=
  forall k, In k failure_policy_fields -> get k cfg = None.

Definition chosen_policies (cfg : value) : list (string * value) :=
  filter (fun kv => is_failure_policy (fst kv)) (fields cfg).

Definition copyright_path : path :=
  [Key "themeConfig"; Key "footer"; Key "copyright"].

Definition at_path (p : path) (cfg : value) : list value :=
  match get_path p cfg with
  | Some v => elements v
  | None => []
  end.

Definition navbar_items : value -> list value :=
  at_path [Key "themeConfig"; Key "navbar"; Key "items"].

Definition sub_items : value -> list value := at_path [Key "items"].

(** The navbar's entries: the items of the bar and, under a dropdown, the
    items it opens. *)
Definition nav_entries (cfg : value) : list value :=
  flat_map (fun it => it :: sub_items it) (navbar_items cfg).

Definition has_link_target (e : value) : bool :=
  has_key "href" e || has_key "to" e.

Definition labelled_linked_positioned (e : value) : Prop :=
  has_key "label" e = true /\ has_link_target e = true
  /\ has_key "position" e = true.

Definition has_type (t : string) (e : value) : bool :=
  match get "type" e with
  | Some v => str_eqb v t
  | None => false
  end.

(** What an item of the bar carries, by its [type]. *)
Definition navbar_item_shape (e : value) : Prop :=
  has_key "label" e = true /\ has_key "position" e = true /\
  if has_type "docSidebar" e then
    has_key "sidebarId" e = true /\ has_link_target e = false
  else if has_type "dropdown" e then
    has_link_target e = false /\ sub_items e <> [] /\
    Forall (fun c => has_key "label" c = true /\ has_key "href" c = true
                     /\ has_key "position" c = false) (sub_items e)
  else
    has_key "type" e = false /\ has_key "href" e = true.

(** The categories the description lists, as fields of [themeConfig], and
    the places of the data it names. *)
Definition described_categories : list string :=
  ["navbar"; "footer"; "colorMode"; "algolia"; "plugins"].

Definition described_fields : list path :=
  map (cons (Key "themeConfig"))
      [[Key "navbar"; Key "items"]; [Key "footer"; Key "links"];
       [Key "colorMode"];
       [Key "algolia"; Key "appId"]; [Key "algolia"; Key "apiKey"];
       [Key "algolia"; Key "indexName"];
       [Key "plugins"]].

Definition present_nonempty (cfg : value) (p : path) : Prop :=
  exists v, get_path p cfg = Some v /\ nonempty v = true.

Definition theme_categories (cfg : value) : list string :=
  match get "themeConfig" cfg with
  | Some t => keys t
  | None => []
  end.

Definition declares_exactly_described (cfg : value) : Prop :=
  (forall k, In k (theme_categories cfg) <-> In k described_categories)
  /\ Forall (present_nonempty cfg) described_fields.

Definition algolia_field (k : string) : path :=
  [Key "themeConfig"; Key "algolia"; Key k].

Definition markprompt_provider_field (k : string) : path :=
  [Key "themeConfig"; Key "markprompt"; Key "search"; Key "provider"; Key k].

(** The options of the plugin of a given name: a plugin is declared as the
    pair [[name, options]]. *)
Definition plugin_options (name : string) (cfg : value) : option value :=
  match find (fun pl => match elements pl with
                        | n :: _ => str_eqb n name
                        | [] => false
                        end)
             (at_path [Key "themeConfig"; Key "plugins"] cfg) with
  | Some pl => nth_error (elements pl) 1
  | None => None
  end.

Definition redirects (cfg : value) : list value :=
  match plugin_options "@docusaurus/plugin-client-redirects" cfg with
  | Some opts => at_path [Key "redirects"] opts
  | None => []
  end.

Definition footer_groups : value -> list value :=
  at_path [Key "themeConfig"; Key "footer"; Key "links"].

(** The internal routes the footer links to: the [to] of every item of
    every group. *)
Definition footer_routes (cfg : value) : list value :=
  flat_map (fun g => flat_map (fun it => match get "to" it with
                                         | Some t => [t]
                                         | None => []
                                         end)
                              (sub_items g))
           (footer_groups cfg).

Definition footer_concepts_target : path :=
  [Key "themeConfig"; Key "footer"; Key "links"; Idx 0; Key "items"; Idx 0;
   Key "to"].

(** *** The module as the statements it runs *)

(** The kinds of top-level statement: imports, [const] declarations,
    writes [x.p = v], function declarations and the default export. *)
#[warnings="-register-all"]
Inductive stmt : Type :=
| ImportDecl (names source : string)
| ConstDecl (name : string) (init : value)
| AssignPath (name : string) (p : path) (rhs : value)
| FunctionDecl (name : string) (body : list stmt)
| ExportDefault (name : string).

Record store : Type := {
  bindings : list (string * value);
  default_export : option value
}.

Definition empty_store : store :=
  {| bindings := []; default_export := None |}.

(** Evaluating the module runs its statements in order.  Imports of types
    are erased and the imported themes are taken as given; declaring a
    function runs nothing of its body. *)
Definition exec (st : store) (s : stmt) : store :=
  match s with
  | ImportDecl _ _ => st
  | ConstDecl x v =>
      {| bindings := (x, v) :: bindings st;
         default_export := default_export st |}
  | AssignPath x p rhs =>
      {| bindings := set_assoc x (set_path p rhs) (bindings st);
         default_export :=
           (* the export is the same object, so it sees the write *)
           match default_export st, assoc x (bindings st) with
           | Some e, Some _ => Some (set_path p rhs e)
           | e, _ => e
           end |}
  | FunctionDecl _ _ => st
  | ExportDefault x =>
      {| bindings := bindings st; default_export := assoc x (bindings st) |}
  end.

Definition run (prog : list stmt) (st : store) : store :=
  fold_left exec prog st.

(** The stores reached after each statement. *)
Fixpoint trace (prog : list stmt) (st : store) : list store :=
  match prog with
  | [] => []
  | s :: rest => exec st s :: trace rest (exec st s)
  end.

Fixpoint writes_to (x : string) (s : stmt) : bool :=
  match s with
  | AssignPath y _ _ => String.eqb y x
  | FunctionDecl _ body => existsb (writes_to x) body
  | _ => false
  end.

Definition declares (x : string) (s : stmt) : bool :=
  match s with
  | ConstDecl y _ => String.eqb y x
  | _ => false
  end.

Definition is_function (s : stmt) : bool :=
  match s with
  | FunctionDecl _ _ => true
  | _ => false
  end.

Definition program (github dracula : value) (year : Z) : list stmt :=
  [ImportDecl "{themes as prismThemes}" "prism-react-renderer";
   ImportDecl "type {Config}" "@docusaurus/types";
   ImportDecl "type * as Preset" "@docusaurus/preset-classic";
   ConstDecl "config" (config github dracula year);
   ExportDefault "config"].

(** *** Links and keys *)

(** The items of all the footer's link groups. *)
Definition footer_items (cfg : value) : list value :=
  flat_map sub_items (footer_groups cfg).

(** The strings a list of entries carries under one key. *)
Definition strings_at (k : string) (es : list value) : list string :=
  flat_map (fun e => match get k e with
                     | Some (VStr s) => [s]
                     | _ => []
                     end) es.

Fixpoint distinct (ks : list string) : bool :=
  match ks with
  | [] => true
  | k :: rest => negb (existsb (String.eqb k) rest) && distinct rest
  end.

(** No object literal inside the value writes one key twice. *)
Fixpoint unique_keys (v : value) : bool :=
  match v with
  | VObj fs =>
      distinct (map fst fs) && forallb (fun kv => unique_keys (snd kv)) fs
  | VArr xs => forallb unique_keys xs
  | _ => true
  end.

(** Property lookup as JavaScript evaluates an object literal: a later field
    of the same name overrides an earlier one. *)
Fixpoint assoc_last (k : string) (fs : list (string * value)) : option value :=
  match fs with
  | [] => None
  | (k', v) :: rest =>
      match assoc_last k rest with
      | Some w => Some w
      | None => if String.eqb k k' then Some v else None
      end
  end.

End Site.

(** ** The Distribution Pools page: how a member's share is determined *)

Module Pool.

Local Open Scope Z_scope.

(** A pool: the total flow rate it distributes (wei per second) and the
    units of each of its members. *)
Record pool : Type := {
  totalFlowRate : Z;
  memberUnits : list Z
}.

Definition sum (xs : list Z) : Z := fold_right Z.add 0 xs.

Definition totalUnits (p : pool) : Z := sum (memberUnits p).

(** Modelled from the spec: the pool contract that computes the flow rate
    per unit is not part of this repository; the rule is taken from the
    prose of the Distribution Pools page.  Step 1: the flow rate per unit,
    the total flow rate divided by the total units, calculated as an
    integer: a result of the division that is not an integer is rounded
    down.  The page speaks of a pool that distributes a flow [F >= 0] over
    units [U > 0], and that is where this definition stands for its rule:
    the contract's division of a negative flow rate rounds toward zero, and
    a division by no units fails. *)
Definition flowRatePerUnit (F U : Z) : Z := F / U.

(** Step 2: the flow rate per unit multiplied by the units of the member. *)
Definition memberFlowRate (p : pool) (units : Z) : Z :=
  flowRatePerUnit (totalFlowRate p) (totalUnits p) * units.

Definition distributed (p : pool) : Z :=
  sum (map (memberFlowRate p) (memberUnits p)).

Definition undistributed (p : pool) : Z :=
  totalFlowRate p - distributed p.

(** The pools of the examples: [n] members with one unit each. *)
Definition one_unit_each (F : Z) (n : nat) : pool :=
  {| totalFlowRate := F; memberUnits := repeat 1 n |}.

(** The quotient of the description: the floor of the exact (rational)
    quotient. *)
Definition floor_of_quotient (F U : Z) : Z :=
  Qfloor (inject_Z F / inject_Z U).

(** A worked example of the page: the pool it takes and the figures it
    prints for it. *)
Record worked_example : Type := {
  example_totalFlowRate : Z;
  example_members : nat;
  example_unitsEach : Z;
  printed_flowRatePerUnit : Z;
  printed_distributedPerUnit : Z;
  printed_undistributed : Z
}.

(** Example 1: 100 wei/second and 3 members of 1 unit; the flow rate per
    unit is 33, the pool distributes 33 tokens to each unit, 1 token is left
    undistributed. *)
Definition example_1 : worked_example :=
  {| example_totalFlowRate := 100; example_members := 3;
     example_unitsEach := 1; printed_flowRatePerUnit := 33;
     printed_distributedPerUnit := 33; printed_undistributed := 1 |}.

(** Example 2: 100 wei/second and 200 members of 1 unit; the flow rate per
    unit is 0, the pool distributes 0 tokens to each unit, 200 tokens are
    left undistributed. *)
Definition example_2 : worked_example :=
  {| example_totalFlowRate := 100; example_members := 200;
     example_unitsEach := 1; printed_flowRatePerUnit := 0;
     printed_distributedPerUnit := 0; printed_undistributed := 200 |}.

Definition example_pool (e : worked_example) : pool :=
  {| totalFlowRate := example_totalFlowRate e;
     memberUnits := repeat (example_unitsEach e) (example_members e) |}.

(** The integer types of the library's signatures: units are [uint128],
    flow rates are [int96]. *)
Definition is_uint128 (x : Z) : Prop := 0 <= x < 2 ^ 128.

Definition is_int96 (x : Z) : Prop := - 2 ^ 95 <= x < 2 ^ 95.

(** The same pool with every member's units multiplied by [k]. *)
Definition scale_units (k : Z) (p : pool) : pool :=
  {| totalFlowRate := totalFlowRate p;
     memberUnits := map (Z.mul k) (memberUnits p) |}.

End Pool.

Import Site.

(** ** Facts about strings and the printing of numbers *)

Section Strings.

Lemma append_length (s t : string) :
  String.length (s ++ t) = String.length s + String.length t.
Proof.
  induction s as [| c s IH]; simpl; [reflexivity | now rewrite IH].
Qed.

Lemma append_cancel_tail (t s1 s2 : string) :
  s1 ++ t = s2 ++ t -> s1 = s2.
Proof.
  revert s2; induction s1 as [| c s1 IH]; intros [| c2 s2] H; simpl in H.
  - reflexivity.
  - apply (f_equal String.length) in H; simpl in H.
    rewrite append_length in H; lia.
  - apply (f_equal String.length) in H; simpl in H.
    rewrite append_length in H; lia.
  - injection H as -> H. f_equal. now apply IH.
Qed.

Lemma to_int_proper (z : Z) :
  Z.to_int z <> Decimal.Pos Decimal.Nil /\
  Z.to_int z <> Decimal.Neg Decimal.Nil.
Proof.
  destruct z as [| p | p]; simpl; split; try discriminate;
    intros [= H]; revert H; apply DecimalPos.Unsigned.to_uint_nonnil.
Qed.

Lemma number_to_string_inj (a b : Z) :
  number_to_string a = number_to_string b -> a = b.
Proof.
  unfold number_to_string; intros H.
  apply (f_equal NilZero.int_of_string) in H.
  destruct (to_int_proper a) as [Ha1 Ha2], (to_int_proper b) as [Hb1 Hb2].
  rewrite !NilZero.isi in H by assumption.
  injection H as H. now apply DecimalZ.to_int_inj.
Qed.

Lemma copyright_inj (a b : Z) : copyright a = copyright b -> a = b.
Proof.
  unfold copyright; intros H.
  apply number_to_string_inj.
  apply (append_cancel_tail " Superfluid Finance LTD. Built with Docusaurus.").
  simpl in H. now injection H.
Qed.

End Strings.

(** ** Writes and bindings *)

Section Bindings.

Lemma assoc_set_assoc_other (x y : string) (f : value -> value)
      (fs : list (string * value)) :
  String.eqb y x = false -> assoc x (set_assoc y f fs) = assoc x fs.
Proof.
  intros Hxy; induction fs as [| [k v] fs IH]; simpl; [reflexivity |].
  destruct (String.eqb y k) eqn:Hyk; simpl.
  - apply String.eqb_eq in Hyk; subst k.
    rewrite String.eqb_sym in Hxy. now rewrite Hxy.
  - destruct (String.eqb x k); [reflexivity | exact IH].
Qed.

(** A statement that neither declares nor writes [x] leaves the binding of
    [x] as it found it. *)
Lemma exec_keeps_binding (x : string) (s : stmt) (st : store) :
  writes_to x s = false -> declares x s = false ->
  assoc x (bindings (exec st s)) = assoc x (bindings st).
Proof.
  destruct s as [n src | y v | y p rhs | n body | y]; simpl;
    intros Hw Hd; try reflexivity.
  - rewrite String.eqb_sym in Hd. now rewrite Hd.
  - now apply assoc_set_assoc_other.
Qed.

Lemma run_keeps_binding (x : string) (prog : list stmt) (st : store) :
  forallb (fun s => negb (writes_to x s) && negb (declares x s)) prog = true ->
  assoc x (bindings (run prog st)) = assoc x (bindings st).
Proof.
  revert st; induction prog as [| s prog IH]; intros st H; simpl in *.
  - reflexivity.
  - apply andb_prop in H as [Hs Hrest].
    apply andb_prop in Hs as [Hw Hd].
    apply negb_true_iff in Hw, Hd.
    unfold run in IH. rewrite IH by exact Hrest.
    now apply exec_keeps_binding.
Qed.

End Bindings.

(** ** The configuration *)

(** C1, as stated, fails: the configuration does hold fields that choose how
    a build-time failure is handled; [onBrokenLinks] is one of them. *)
Lemma config_sets_onBrokenLinks :
  ~ no_failure_policy (config (VObj []) (VObj []) 2024).
Proof.
  intros H. specialize (H "onBrokenLinks").
  assert (Hin : In "onBrokenLinks" failure_policy_fields) by (simpl; tauto).
  apply H in Hin. vm_compute in Hin. discriminate.
Qed.

(** C1, amended: the configuration chooses the handling of exactly two
    build-time failure modes, broken links are ignored and broken Markdown
    links are warned about; it sets no other failure-handling option. *)
Theorem config_failure_policies (github dracula : value) (year : Z) :
  let cfg := config github dracula year in
  chosen_policies cfg =
    [("onBrokenLinks", VStr "ignore"); ("onBrokenMarkdownLinks", VStr "warn")]
  /\ get "onBrokenLinks" cfg = Some (VStr "ignore")
  /\ get "onBrokenMarkdownLinks" cfg = Some (VStr "warn")
  /\ (forall k, In k failure_policy_fields ->
        get k cfg = None \/ k = "onBrokenLinks" \/ k = "onBrokenMarkdownLinks").
Proof.
  cbv zeta. repeat split; try reflexivity.
  intros k Hk. simpl in Hk.
  destruct Hk as [<- | [<- | [<- | [<- | []]]]]; auto.
Qed.

(** C2, as stated, fails: evaluated in 2023 and in 2024 the module yields
    two different configurations. *)
Lemma config_2023_differs_from_2024 :
  config (VObj []) (VObj []) 2023 <> config (VObj []) (VObj []) 2024.
Proof.
  intros H. apply (f_equal (get_path copyright_path)) in H.
  vm_compute in H. discriminate.
Qed.

(** C2, amended: the configuration depends on the time of evaluation through
    the footer's copyright string alone, which prints the current year.  The
    configuration of one evaluation is that of any other with only the
    copyright replaced, and two evaluations yield the same configuration
    exactly when they take place in the same year. *)
Theorem config_varies_with_year_only (github dracula : value) (y1 y2 : Z) :
  config github dracula y1 =
    set_path copyright_path (VStr (copyright y1)) (config github dracula y2)
  /\ get_path copyright_path (config github dracula y1)
     = Some (VStr ("Copyright © " ++ number_to_string y1
                     ++ " Superfluid Finance LTD. Built with Docusaurus."))
  /\ (config github dracula y1 = config github dracula y2 <-> y1 = y2).
Proof.
  split; [reflexivity | split; [reflexivity |]].
  split.
  - intros H. apply (f_equal (get_path copyright_path)) in H.
    change (Some (VStr (copyright y1)) = Some (VStr (copyright y2))) in H.
    apply copyright_inj. congruence.
  - now intros ->.
Qed.

(** C5, as stated, fails: the first entry of the navbar, the Concepts
    sidebar, has a label and a position but no link target. *)
Lemma concepts_entry_has_no_link_target :
  ~ Forall labelled_linked_positioned
      (nav_entries (config (VObj []) (VObj []) 2024)).
Proof.
  intros H. apply Forall_inv in H.
  destruct H as (_ & Hlink & _). vm_compute in Hlink. discriminate.
Qed.

(** C5, amended: every item of the navbar has a label and a position.  A
    [docSidebar] item names a sidebar and has no link target; the dropdown
    has no link target of its own and opens items that each have a label and
    an href but no position; every other item has an href. *)
Theorem navbar_items_shape (github dracula : value) (year : Z) :
  let cfg := config github dracula year in
  Forall navbar_item_shape (navbar_items cfg)
  /\ map (get "type") (navbar_items cfg)
     = [Some (VStr "docSidebar"); Some (VStr "docSidebar");
        Some (VStr "docSidebar"); Some (VStr "docSidebar");
        None; None; None; Some (VStr "dropdown")]
  /\ List.length (nav_entries cfg) = 10%nat.
Proof.
  cbv zeta. split; [| split; reflexivity].
  unfold navbar_items, at_path. cbn [get_path].
  vm_compute.
  repeat (apply Forall_cons || apply Forall_nil);
    repeat split; try reflexivity; try discriminate;
    repeat (apply Forall_cons || apply Forall_nil); repeat split.
Qed.

(** C6, as stated, fails: [themeConfig] declares more than the described
    categories, the [prism] syntax-highlighting settings for one. *)
Lemma themeConfig_declares_prism :
  ~ declares_exactly_described (config (VObj []) (VObj []) 2024).
Proof.
  intros [H _]. destruct (H "prism") as [H1 _].
  assert (Hin : In "prism" (theme_categories (config (VObj []) (VObj []) 2024)))
    by (vm_compute; tauto).
  apply H1 in Hin. simpl in Hin.
  repeat (destruct Hin as [Hin | Hin]; [discriminate Hin |]).
  exact Hin.
Qed.

(** C6, amended: the configuration declares each of the described categories,
    present and non-empty: the navbar items, the footer link groups, the
    color mode, the search credentials (application ID, API key, index name)
    and the plugin list.  Its [themeConfig] declares, besides these, a social
    card image, the prism settings and the markprompt block. *)
Theorem config_declares_described (github dracula : value) (year : Z) :
  let cfg := config github dracula year in
  Forall (present_nonempty cfg) described_fields
  /\ (forall k, In k described_categories -> In k (theme_categories cfg))
  /\ theme_categories cfg =
       ["colorMode"; "image"; "navbar"; "footer"; "prism"; "algolia";
        "markprompt"; "plugins"]
  /\ keys cfg =
       ["title"; "tagline"; "favicon"; "themes"; "url"; "baseUrl";
        "organizationName"; "projectName"; "onBrokenLinks";
        "onBrokenMarkdownLinks"; "i18n"; "presets"; "themeConfig"].
Proof.
  cbv zeta. split; [| split; [| split; reflexivity]].
  - unfold described_fields; simpl map.
    repeat (apply Forall_cons || apply Forall_nil);
      (eexists; split; reflexivity).
  - intros k Hk. simpl in Hk.
    repeat (destruct Hk as [<- | Hk]; [vm_compute; tauto |]).
    destruct Hk.
Qed.

(** C7: nothing in the module writes to the configuration.  No statement of
    the module assigns to [config] or declares a function; the binding of
    [config] is undefined before its declaration and the constructed object
    after every statement from then on, and that object is what the module
    exports. *)
Theorem config_is_never_written (github dracula : value) (year : Z) :
  let prog := program github dracula year in
  Forall (fun s => writes_to "config" s = false /\ is_function s = false) prog
  /\ map (fun st => assoc "config" (bindings st)) (trace prog empty_store)
     = [None; None; None;
        Some (config github dracula year); Some (config github dracula year)]
  /\ default_export (run prog empty_store) = Some (config github dracula year).
Proof.
  cbv zeta. split; [| split; reflexivity].
  unfold program. repeat constructor.
Qed.

(** C8: the algolia block and the search provider of the markprompt block
    name the same index: their appId, apiKey and indexName are set, and
    respectively equal. *)
Theorem search_blocks_share_index (github dracula : value) (year : Z) :
  let cfg := config github dracula year in
  Forall (fun k =>
            get_path (algolia_field k) cfg
              = get_path (markprompt_provider_field k) cfg
            /\ exists s, get_path (algolia_field k) cfg = Some (VStr s)
                         /\ s <> "")
         ["appId"; "apiKey"; "indexName"]
  /\ get_path (algolia_field "appId") cfg = Some (VStr "O3JEVRIQUM")
  /\ get_path (algolia_field "apiKey") cfg
     = Some (VStr "8de88a77f0d3ae7ea04ea6e10bd6b52c")
  /\ get_path (algolia_field "indexName") cfg = Some (VStr "v2-omega").
Proof.
  cbv zeta. split; [| repeat split].
  repeat (apply Forall_cons || apply Forall_nil);
    (split; [reflexivity | eexists; split; [reflexivity | discriminate]]).
Qed.

(** C9: the client-redirects plugin declares exactly one redirect; its
    target is [/docs/concepts/superfluid], the target of the footer's
    Concepts link, so every redirect leads to a route the footer links to. *)
Theorem redirect_target_is_linked (github dracula : value) (year : Z) :
  let cfg := config github dracula year in
  exists r,
    redirects cfg = [r]
    /\ get "to" r = Some (VStr "/docs/concepts/superfluid")
    /\ get "to" r = get_path footer_concepts_target cfg
    /\ get_path [Key "themeConfig"; Key "footer"; Key "links"; Idx 0;
                 Key "items"; Idx 0; Key "label"] cfg = Some (VStr "Concepts")
    /\ Forall (fun r' => exists t, get "to" r' = Some t
                                   /\ In t (footer_routes cfg))
              (redirects cfg).
Proof.
  cbv zeta. eexists. split; [reflexivity |].
  repeat split.
  apply Forall_cons; [| apply Forall_nil].
  eexists; split; [reflexivity |]. vm_compute. tauto.
Qed.

(** C10: the default locale, [en], is one of the configured locales. *)
Theorem defaultLocale_in_locales (github dracula : value) (year : Z) :
  let cfg := config github dracula year in
  exists l ls,
    get_path [Key "i18n"; Key "defaultLocale"] cfg = Some l
    /\ get_path [Key "i18n"; Key "locales"] cfg = Some (VArr ls)
    /\ l = VStr "en"
    /\ In l ls.
Proof.
  cbv zeta. do 2 eexists. repeat split. simpl. tauto.
Qed.

(** ** The share of a pool member *)

Section Shares.

Local Open Scope Z_scope.
Import Pool.

Lemma sum_scaled (r : Z) (us : list Z) :
  Pool.sum (map (fun u => r * u) us) = r * Pool.sum us.
Proof.
  induction us as [| u us IH]; simpl; [ring | rewrite IH; ring].
Qed.

Lemma distributed_eq (p : pool) :
  distributed p
  = flowRatePerUnit (totalFlowRate p) (totalUnits p) * totalUnits p.
Proof.
  unfold distributed, memberFlowRate, totalUnits. apply sum_scaled.
Qed.

Lemma floor_of_quotient_div (F U : Z) : floor_of_quotient F U = F / U.
Proof.
  unfold floor_of_quotient. symmetry. apply Zdiv_Qdiv.
Qed.

Lemma totalUnits_one_unit_each (F : Z) (n : nat) :
  totalUnits (one_unit_each F n) = Z.of_nat n.
Proof.
  unfold totalUnits, one_unit_each; simpl.
  induction n as [| n IH]; [reflexivity |].
  cbn [repeat Pool.sum fold_right]. unfold Pool.sum in IH. rewrite IH. lia.
Qed.

End Shares.

(** C3: the flow rate per unit is the quotient rounded down.  For a total
    flow rate [F >= 0] and total units [U > 0] it is the floor of [F / U],
    the one integer [q] with [q * U <= F < (q + 1) * U]; a flow of 100 over 3
    units gives 33, over 200 units gives 0. *)
Theorem flowRatePerUnit_is_floor (F U : Z) (HF : (0 <= F)%Z) (HU : (0 < U)%Z) :
  Pool.flowRatePerUnit F U = Pool.floor_of_quotient F U
  /\ (0 <= Pool.flowRatePerUnit F U)%Z
  /\ (Pool.flowRatePerUnit F U * U <= F < (Pool.flowRatePerUnit F U + 1) * U)%Z
  /\ (forall q : Z, (q * U <= F < (q + 1) * U)%Z -> q = Pool.flowRatePerUnit F U)
  /\ Pool.flowRatePerUnit 100 3 = 33%Z
  /\ Pool.flowRatePerUnit 100 200 = 0%Z.
Proof.
  rewrite floor_of_quotient_div. unfold Pool.flowRatePerUnit.
  split; [reflexivity |].
  split; [apply Z.div_pos; assumption |].
  split; [| split; [| split; reflexivity]].
  - pose proof (Z.div_mod F U ltac:(lia)) as Hdm.
    pose proof (Z.mod_pos_bound F U HU) as Hb. nia.
  - intros q Hq. apply Z.div_unique with (r := (F - U * q)%Z); lia.
Qed.

Lemma flowRatePerUnit_is_floor_witness :
  Pool.flowRatePerUnit 100 3 = Pool.floor_of_quotient 100 3
  /\ (0 <= Pool.flowRatePerUnit 100 3)%Z
  /\ (Pool.flowRatePerUnit 100 3 * 3 <= 100 < (Pool.flowRatePerUnit 100 3 + 1) * 3)%Z
  /\ (forall q : Z, (q * 3 <= 100 < (q + 1) * 3)%Z -> q = Pool.flowRatePerUnit 100 3)
  /\ Pool.flowRatePerUnit 100 3 = 33%Z
  /\ Pool.flowRatePerUnit 100 200 = 0%Z.
Proof.
  apply (flowRatePerUnit_is_floor 100 3); lia.
Defined.

(** C4: the page's figures against its two-step rule.  Under the rule each
    member's flow rate is the floor of [F / U] multiplied by the member's
    units and the undistributed remainder is [F - U * floor (F / U)].
    Example 1 prints what the rule gives: 33 per unit and 1 left
    undistributed.  Example 2 prints the rule's 0 per unit, but 200 left
    undistributed, where the rule leaves 100: the printed remainder is twice
    the whole flow. *)
Theorem example_2_prints_200_where_the_rule_leaves_100 :
  let p1 := Pool.example_pool Pool.example_1 in
  let p2 := Pool.example_pool Pool.example_2 in
  (Pool.floor_of_quotient (Pool.totalFlowRate p1) (Pool.totalUnits p1)
     = Pool.printed_flowRatePerUnit Pool.example_1
   /\ Forall (fun u => Pool.memberFlowRate p1 u
                       = (Pool.printed_distributedPerUnit Pool.example_1 * u)%Z)
             (Pool.memberUnits p1)
   /\ (Pool.totalFlowRate p1
       - Pool.totalUnits p1
         * Pool.floor_of_quotient (Pool.totalFlowRate p1) (Pool.totalUnits p1))%Z
      = Pool.printed_undistributed Pool.example_1
   /\ Pool.undistributed p1 = Pool.printed_undistributed Pool.example_1)
  /\ (Pool.floor_of_quotient (Pool.totalFlowRate p2) (Pool.totalUnits p2)
      = Pool.printed_flowRatePerUnit Pool.example_2
      /\ Forall (fun u => Pool.memberFlowRate p2 u
                          = (Pool.printed_distributedPerUnit Pool.example_2 * u)%Z)
                (Pool.memberUnits p2)
      /\ (Pool.totalFlowRate p2
          - Pool.totalUnits p2
            * Pool.floor_of_quotient (Pool.totalFlowRate p2)
                                     (Pool.totalUnits p2))%Z = 100%Z
      /\ Pool.undistributed p2 = 100%Z
      /\ Pool.printed_undistributed Pool.example_2 = 200%Z
      /\ (Pool.totalFlowRate p2 < Pool.printed_undistributed Pool.example_2)%Z).
Proof.
  cbv zeta. rewrite !floor_of_quotient_div. split.
  - split; [reflexivity |].
    split; [| split; reflexivity].
    apply Forall_forall. intros u _. reflexivity.
  - split; [reflexivity |].
    split; [| repeat split].
    apply Forall_forall. intros u _. reflexivity.
Qed.

(** ** Further properties of the share calculation *)

Section ShareProperties.

Local Open Scope Z_scope.
Import Pool.

Lemma undistributed_mod (p : pool) :
  0 < totalUnits p ->
  undistributed p = totalFlowRate p mod totalUnits p.
Proof.
  intros HU. unfold undistributed. rewrite distributed_eq.
  unfold flowRatePerUnit.
  pose proof (Z.div_mod (totalFlowRate p) (totalUnits p) ltac:(lia)). lia.
Qed.

Lemma sum_nonneg (us : list Z) :
  Forall (fun u => 0 <= u) us -> 0 <= Pool.sum us.
Proof.
  induction 1 as [| u us Hu _ IH]; simpl; lia.
Qed.

Lemma member_le_sum (us : list Z) (u : Z) :
  Forall (fun v => 0 <= v) us -> In u us -> u <= Pool.sum us.
Proof.
  induction 1 as [| v us Hv Hus IH]; simpl; intros Hin; [destruct Hin |].
  pose proof (sum_nonneg us Hus).
  destruct Hin as [-> | Hin]; [lia | specialize (IH Hin); lia].
Qed.

Lemma totalUnits_scale_units (k : Z) (p : pool) :
  totalUnits (scale_units k p) = k * totalUnits p.
Proof.
  unfold totalUnits, scale_units; simpl. apply sum_scaled.
Qed.

Lemma uint128_nonneg (us : list Z) :
  Forall is_uint128 us -> Forall (fun u => 0 <= u) us.
Proof.
  apply Forall_impl. intros u [H _]. exact H.
Qed.

End ShareProperties.

(** X1: a pool whose total flow rate is below its total units distributes
    nothing.  The flow rate per unit is 0 exactly when [F < U]; then every
    member's flow rate is 0 and the pool distributes 0 in all. *)
Theorem flow_below_units_starves (p : Pool.pool)
        (HF : (0 <= Pool.totalFlowRate p)%Z) (HU : (0 < Pool.totalUnits p)%Z) :
  let F := Pool.totalFlowRate p in
  let U := Pool.totalUnits p in
  (Pool.flowRatePerUnit F U = 0%Z <-> (F < U)%Z)
  /\ ((F < U)%Z ->
      Forall (fun u => Pool.memberFlowRate p u = 0%Z) (Pool.memberUnits p)
      /\ Pool.distributed p = 0%Z).
Proof.
  cbv zeta. unfold Pool.flowRatePerUnit.
  assert (Hz : (Pool.totalFlowRate p / Pool.totalUnits p = 0
               <-> Pool.totalFlowRate p < Pool.totalUnits p)%Z).
  { split; intros H.
    - pose proof (Z.div_mod (Pool.totalFlowRate p) (Pool.totalUnits p)
                            ltac:(lia)) as Hdm.
      pose proof (Z.mod_pos_bound (Pool.totalFlowRate p) (Pool.totalUnits p) HU).
      rewrite H in Hdm. lia.
    - apply Z.div_small. lia. }
  split; [exact Hz |].
  intros Hlt. apply Hz in Hlt. split.
  - apply Forall_forall. intros u _.
    unfold Pool.memberFlowRate, Pool.flowRatePerUnit. rewrite Hlt. lia.
  - rewrite distributed_eq. unfold Pool.flowRatePerUnit. rewrite Hlt. lia.
Qed.

Lemma flow_below_units_starves_witness :
  let p := Pool.example_pool Pool.example_2 in
  (Pool.flowRatePerUnit 100 (Pool.totalUnits p) = 0%Z
   <-> (100 < Pool.totalUnits p)%Z)
  /\ ((100 < Pool.totalUnits p)%Z ->
      Forall (fun u => Pool.memberFlowRate p u = 0%Z) (Pool.memberUnits p)
      /\ Pool.distributed p = 0%Z).
Proof.
  apply (flow_below_units_starves (Pool.example_pool Pool.example_2));
    vm_compute; [discriminate | reflexivity].
Defined.

(** X2: a pool whose total flow rate is at least its total units reaches all
    its members.  The flow rate per unit is at least 1, so a member with at
    least one unit receives a flow rate of at least its units. *)
Theorem flow_covering_units_reaches_all (p : Pool.pool)
        (HU : (0 < Pool.totalUnits p)%Z)
        (HF : (Pool.totalUnits p <= Pool.totalFlowRate p)%Z) :
  (1 <= Pool.flowRatePerUnit (Pool.totalFlowRate p) (Pool.totalUnits p))%Z
  /\ Forall (fun u => (1 <= u)%Z -> (u <= Pool.memberFlowRate p u)%Z)
            (Pool.memberUnits p).
Proof.
  assert (H1 : (1 <= Pool.totalFlowRate p / Pool.totalUnits p)%Z).
  { apply Z.div_le_lower_bound; lia. }
  split; [exact H1 |].
  apply Forall_forall. intros u _ Hu.
  unfold Pool.memberFlowRate, Pool.flowRatePerUnit. nia.
Qed.

Lemma flow_covering_units_reaches_all_witness :
  let p := Pool.one_unit_each 100 3 in
  (1 <= Pool.flowRatePerUnit (Pool.totalFlowRate p) (Pool.totalUnits p))%Z
  /\ Forall (fun u => (1 <= u)%Z -> (u <= Pool.memberFlowRate p u)%Z)
            (Pool.memberUnits p).
Proof.
  apply (flow_covering_units_reaches_all (Pool.one_unit_each 100 3));
    vm_compute; [reflexivity | discriminate].
Defined.

(** X3: nothing is left undistributed exactly when the total units divide
    the total flow rate. *)
Theorem nothing_undistributed_iff_divides (p : Pool.pool)
        (HU : (0 < Pool.totalUnits p)%Z) :
  Pool.undistributed p = 0%Z
  <-> (Pool.totalUnits p | Pool.totalFlowRate p)%Z.
Proof.
  rewrite undistributed_mod by exact HU.
  apply Z.mod_divide. lia.
Qed.

Lemma nothing_undistributed_iff_divides_witness :
  Pool.undistributed (Pool.one_unit_each 99 3) = 0%Z
  <-> (Pool.totalUnits (Pool.one_unit_each 99 3)
       | Pool.totalFlowRate (Pool.one_unit_each 99 3))%Z.
Proof.
  apply (nothing_undistributed_iff_divides (Pool.one_unit_each 99 3)).
  vm_compute. reflexivity.
Defined.

(** X4: the design advice of the page, in numbers.  When the total flow rate
    is at least [k] times the total units, less than one [k]-th of the flow
    is left undistributed. *)
Theorem undistributed_share_bounded (p : Pool.pool) (k : Z)
        (Hk : (0 < k)%Z) (HU : (0 < Pool.totalUnits p)%Z)
        (HF : (k * Pool.totalUnits p <= Pool.totalFlowRate p)%Z) :
  (k * Pool.undistributed p < Pool.totalFlowRate p)%Z.
Proof.
  rewrite undistributed_mod by exact HU.
  pose proof (Z.mod_pos_bound (Pool.totalFlowRate p) (Pool.totalUnits p) HU).
  nia.
Qed.

Lemma undistributed_share_bounded_witness :
  (10 * Pool.undistributed (Pool.one_unit_each 100 3) < 100)%Z.
Proof.
  apply (undistributed_share_bounded (Pool.one_unit_each 100 3) 10);
    vm_compute; try reflexivity; discriminate.
Defined.

(** X5: no member's flow rate exceeds the total flow rate.  With units that
    are [uint128] values and a non-negative total flow rate that is an
    [int96] value, every member's flow rate lies between 0 and the total,
    and so is an [int96] value too. *)
Theorem member_flow_within_total (p : Pool.pool)
        (Hunits : Forall Pool.is_uint128 (Pool.memberUnits p))
        (HF : (0 <= Pool.totalFlowRate p)%Z)
        (H96 : Pool.is_int96 (Pool.totalFlowRate p))
        (HU : (0 < Pool.totalUnits p)%Z) :
  Forall (fun u => (0 <= Pool.memberFlowRate p u <= Pool.totalFlowRate p)%Z
                   /\ Pool.is_int96 (Pool.memberFlowRate p u))
         (Pool.memberUnits p).
Proof.
  apply Forall_forall. intros u Hin.
  pose proof (uint128_nonneg _ Hunits) as Hnn.
  assert (Hu0 : (0 <= u)%Z).
  { rewrite Forall_forall in Hnn. now apply Hnn. }
  assert (HuU : (u <= Pool.totalUnits p)%Z).
  { unfold Pool.totalUnits. now apply member_le_sum. }
  assert (Hq : (0 <= Pool.totalFlowRate p / Pool.totalUnits p)%Z).
  { apply Z.div_pos; assumption. }
  assert (HqU : (Pool.totalFlowRate p / Pool.totalUnits p * Pool.totalUnits p
                 <= Pool.totalFlowRate p)%Z).
  { rewrite Z.mul_comm. apply Z.mul_div_le. exact HU. }
  assert (Hb : (0 <= Pool.memberFlowRate p u <= Pool.totalFlowRate p)%Z).
  { unfold Pool.memberFlowRate, Pool.flowRatePerUnit. nia. }
  split; [exact Hb |].
  unfold Pool.is_int96 in *. lia.
Qed.

Lemma member_flow_within_total_witness :
  let p := Pool.one_unit_each 100 3 in
  Forall (fun u => (0 <= Pool.memberFlowRate p u <= 100)%Z
                   /\ Pool.is_int96 (Pool.memberFlowRate p u))
         (Pool.memberUnits p).
Proof.
  apply (member_flow_within_total (Pool.one_unit_each 100 3)).
  - simpl. repeat (apply Forall_cons || apply Forall_nil);
      (split; vm_compute; [discriminate | reflexivity]).
  - vm_compute. discriminate.
  - split; vm_compute; [discriminate | reflexivity].
  - vm_compute. reflexivity.
Defined.

(** X6: finer units never pay more.  For a flow [F >= 0], multiplying every
    member's units by [k > 0] while the flow stays the same lowers the flow
    rate per unit to the floor of its [k]-th, so no member's flow rate grows
    and the pool distributes no more than before. *)
Theorem finer_units_never_pay_more (p : Pool.pool) (k : Z)
        (Hk : (0 < k)%Z)
        (HF : (0 <= Pool.totalFlowRate p)%Z)
        (Hunits : Forall (fun u => (0 <= u)%Z) (Pool.memberUnits p))
        (HU : (0 < Pool.totalUnits p)%Z) :
  let p' := Pool.scale_units k p in
  Pool.flowRatePerUnit (Pool.totalFlowRate p') (Pool.totalUnits p')
    = (Pool.flowRatePerUnit (Pool.totalFlowRate p) (Pool.totalUnits p) / k)%Z
  /\ Forall (fun u => (Pool.memberFlowRate p' (k * u)
                       <= Pool.memberFlowRate p u)%Z) (Pool.memberUnits p)
  /\ (Pool.distributed p' <= Pool.distributed p)%Z.
Proof.
  cbv zeta.
  assert (Hq : (Pool.flowRatePerUnit (Pool.totalFlowRate (Pool.scale_units k p))
                  (Pool.totalUnits (Pool.scale_units k p))
                = Pool.flowRatePerUnit (Pool.totalFlowRate p)
                    (Pool.totalUnits p) / k)%Z).
  { rewrite totalUnits_scale_units. unfold Pool.flowRatePerUnit; simpl.
    rewrite (Z.mul_comm k). symmetry. apply Z.div_div; lia. }
  assert (Hle : (Pool.flowRatePerUnit (Pool.totalFlowRate p)
                   (Pool.totalUnits p) / k * k
                 <= Pool.flowRatePerUnit (Pool.totalFlowRate p)
                      (Pool.totalUnits p))%Z).
  { rewrite Z.mul_comm. apply Z.mul_div_le. exact Hk. }
  split; [exact Hq | split].
  - rewrite Forall_forall in Hunits |- *. intros u Hin.
    specialize (Hunits u Hin).
    unfold Pool.memberFlowRate at 1. rewrite Hq.
    unfold Pool.memberFlowRate. nia.
  - rewrite !distributed_eq, Hq, totalUnits_scale_units. nia.
Qed.

Lemma finer_units_never_pay_more_witness :
  let p := Pool.one_unit_each 100 3 in
  let p' := Pool.scale_units 2 p in
  Pool.flowRatePerUnit (Pool.totalFlowRate p') (Pool.totalUnits p')
    = (Pool.flowRatePerUnit (Pool.totalFlowRate p) (Pool.totalUnits p) / 2)%Z
  /\ Forall (fun u => (Pool.memberFlowRate p' (2 * u)
                       <= Pool.memberFlowRate p u)%Z) (Pool.memberUnits p)
  /\ (Pool.distributed p' <= Pool.distributed p)%Z.
Proof.
  apply (finer_units_never_pay_more (Pool.one_unit_each 100 3) 2).
  - reflexivity.
  - vm_compute. discriminate.
  - simpl. repeat constructor; discriminate.
  - vm_compute. reflexivity.
Defined.

(** X7: shares grow with units and with the flow.  Between two pools with
    the same total units, a member of the pool with the larger flow and with
    at least as many units has at least as large a flow rate. *)
Theorem member_flow_monotone (p q : Pool.pool) (u1 u2 : Z)
        (HU : (0 < Pool.totalUnits p)%Z)
        (Hsame : Pool.totalUnits q = Pool.totalUnits p)
        (HF : (0 <= Pool.totalFlowRate p <= Pool.totalFlowRate q)%Z)
        (Hu : (0 <= u1 <= u2)%Z) :
  (Pool.memberFlowRate p u1 <= Pool.memberFlowRate q u2)%Z.
Proof.
  unfold Pool.memberFlowRate, Pool.flowRatePerUnit. rewrite Hsame.
  assert (H0 : (0 <= Pool.totalFlowRate p / Pool.totalUnits p)%Z)
    by (apply Z.div_pos; lia).
  assert (Hq : (Pool.totalFlowRate p / Pool.totalUnits p
                <= Pool.totalFlowRate q / Pool.totalUnits p)%Z)
    by (apply Z.div_le_mono; lia).
  nia.
Qed.

Lemma member_flow_monotone_witness :
  (Pool.memberFlowRate (Pool.one_unit_each 100 3) 1
   <= Pool.memberFlowRate (Pool.one_unit_each 200 3) 2)%Z.
Proof.
  apply (member_flow_monotone (Pool.one_unit_each 100 3)
                              (Pool.one_unit_each 200 3) 1 2);
    vm_compute; try reflexivity; split; discriminate.
Defined.

(** ** Further properties of the configuration *)

Section Keys.

Lemma existsb_eqb_false (k : string) (ks : list string) :
  existsb (String.eqb k) ks = false -> ~ In k ks.
Proof.
  intros H Hin.
  assert (Ht : existsb (String.eqb k) ks = true).
  { apply existsb_exists. exists k. split; [exact Hin | apply String.eqb_refl]. }
  congruence.
Qed.

Lemma assoc_last_none (k : string) (fs : list (string * value)) :
  ~ In k (map fst fs) -> assoc_last k fs = None.
Proof.
  induction fs as [| [k' v] fs IH]; simpl; intros Hn; [reflexivity |].
  rewrite IH by tauto.
  destruct (String.eqb_spec k k') as [-> | _]; [tauto | reflexivity].
Qed.

(** Where no key is written twice, taking the first field of a name and
    taking the last one agree. *)
Lemma assoc_last_distinct (k : string) (fs : list (string * value)) :
  distinct (map fst fs) = true -> assoc_last k fs = assoc k fs.
Proof.
  induction fs as [| [k' v] fs IH]; simpl; intros H; [reflexivity |].
  apply andb_prop in H as [Hk Hrest]. apply negb_true_iff in Hk.
  destruct (String.eqb_spec k k') as [-> | Hne].
  - rewrite assoc_last_none; [reflexivity |].
    now apply existsb_eqb_false.
  - rewrite IH by exact Hrest. now destruct (assoc k fs).
Qed.

End Keys.

(** Replace a list read off the configuration by its elements, and search
    such a list for an element that meets what is asked of it. *)
Ltac list_out t :=
  let l := eval vm_compute in t in change t with l.

Ltac pick_from l :=
  lazymatch l with
  | ?x :: ?rest =>
      first [ exists x; split; [simpl; tauto | split; reflexivity]
            | pick_from rest ]
  end.

Ltac pick :=
  lazymatch goal with
  | |- exists x, In x ?l /\ _ => pick_from l
  end.

(** X8: every link group of the footer has a title and at least one item,
    and every item has a label and exactly one link target, an internal
    [to] or an external [href], and no position. *)
Theorem footer_items_shape (github dracula : value) (year : Z) :
  let cfg := config github dracula year in
  footer_groups cfg <> []
  /\ Forall (fun grp =>
               has_key "title" grp = true
               /\ sub_items grp <> []
               /\ Forall (fun it =>
                            has_key "label" it = true
                            /\ xorb (has_key "href" it) (has_key "to" it) = true
                            /\ has_key "position" it = false)
                         (sub_items grp))
            (footer_groups cfg).
Proof.
  cbv zeta. list_out (footer_groups (config github dracula year)).
  split; [discriminate |].
  repeat (apply Forall_cons || apply Forall_nil);
    (split; [reflexivity | split; [vm_compute; discriminate |]]);
    match goal with
    | |- Forall _ ?l => list_out l
    end;
    repeat (apply Forall_cons || apply Forall_nil); repeat split.
Qed.

(** X9: the navbar and the footer agree.  Every sidebar the navbar opens has
    a footer item of the same label that leads to an internal route, every
    internal route of the footer carries the label of a navbar sidebar, and
    an entry of the navbar and an item of the footer that share a label and
    both have an href have the same href. *)
Theorem navbar_and_footer_agree (github dracula : value) (year : Z) :
  let cfg := config github dracula year in
  Forall (fun e => has_type "docSidebar" e = true ->
                   exists f, In f (footer_items cfg)
                             /\ get "label" f = get "label" e
                             /\ has_key "to" f = true)
         (navbar_items cfg)
  /\ Forall (fun f => has_key "to" f = true ->
                      exists e, In e (navbar_items cfg)
                                /\ has_type "docSidebar" e = true
                                /\ get "label" e = get "label" f)
            (footer_items cfg)
  /\ Forall (fun e => forall f,
                 In f (footer_items cfg) ->
                 get "label" f = get "label" e ->
                 has_key "href" e = true -> has_key "href" f = true ->
                 get "href" f = get "href" e)
            (nav_entries cfg).
Proof.
  cbv zeta.
  list_out (navbar_items (config github dracula year)).
  list_out (footer_items (config github dracula year)).
  list_out (nav_entries (config github dracula year)).
  split; [| split].
  - repeat (apply Forall_cons || apply Forall_nil);
      intros H; vm_compute in H; try discriminate H; pick.
  - repeat (apply Forall_cons || apply Forall_nil);
      intros H; vm_compute in H; try discriminate H; pick.
  - repeat (apply Forall_cons || apply Forall_nil);
      intros f Hin Hl He Hf;
      vm_compute in He; try discriminate He;
      simpl in Hin;
      repeat (destruct Hin as [<- | Hin];
              [first [ vm_compute in Hl; discriminate Hl
                     | vm_compute in Hf; discriminate Hf
                     | reflexivity ] |]);
      destruct Hin.
Qed.

(** X10: the link targets are well formed.  Every href of the navbar and of
    the footer is an https URL, or ["#"] for the current version; every
    internal route of the footer lies under [/docs/]; and the redirect
    leads from an absolute path that differs from its target and is not
    itself a route the footer links to. *)
Theorem link_targets_well_formed (github dracula : value) (year : Z) :
  let cfg := config github dracula year in
  let links := (nav_entries cfg ++ footer_items cfg)%list in
  Forall (fun s => s = "#" \/ String.prefix "https://" s = true)
         (strings_at "href" links)
  /\ List.length (strings_at "href" links) = 12%nat
  /\ Forall (fun s => String.prefix "/docs/" s = true)
            (strings_at "to" links)
  /\ List.length (strings_at "to" links) = 4%nat
  /\ Forall (fun r => exists from to,
                 get "from" r = Some (VStr from)
                 /\ get "to" r = Some (VStr to)
                 /\ from <> to
                 /\ String.prefix "/" from = true
                 /\ ~ In (VStr from) (footer_routes cfg))
            (redirects cfg).
Proof.
  cbv zeta.
  list_out (strings_at "href"
              (nav_entries (config github dracula year)
               ++ footer_items (config github dracula year))%list).
  list_out (strings_at "to"
              (nav_entries (config github dracula year)
               ++ footer_items (config github dracula year))%list).
  list_out (redirects (config github dracula year)).
  list_out (footer_routes (config github dracula year)).
  split; [| split; [reflexivity | split; [| split; [reflexivity |]]]].
  - repeat (apply Forall_cons || apply Forall_nil);
      first [left; reflexivity | right; reflexivity].
  - repeat (apply Forall_cons || apply Forall_nil); reflexivity.
  - apply Forall_cons; [| apply Forall_nil].
    do 2 eexists.
    split; [reflexivity | split; [reflexivity | split; [discriminate |]]].
    split; [reflexivity |].
    simpl. intros H.
    repeat (destruct H as [H | H]; [discriminate H |]). exact H.
Qed.

(** X11: no object literal of the configuration writes a key twice, provided
    the two imported themes do not.  So reading a top-level field gives the
    same value whether the first or, as JavaScript has it, the last field of
    that name is taken. *)
Theorem config_keys_unique (github dracula : value) (year : Z)
        (Hg : unique_keys github = true) (Hd : unique_keys dracula = true) :
  let cfg := config github dracula year in
  unique_keys cfg = true
  /\ (forall k, assoc_last k (fields cfg) = get k cfg)
  /\ (forall k t, get "themeConfig" cfg = Some t ->
                  assoc_last k (fields t) = get k t).
Proof.
  cbv zeta.
  assert (Hu : unique_keys (config github dracula year) = true).
  { unfold config, themeConfig.
    cbn [unique_keys forallb map fst snd].
    rewrite Hg, Hd. vm_compute. reflexivity. }
  split; [exact Hu | split].
  - intros k. apply assoc_last_distinct. reflexivity.
  - intros k t Ht. injection Ht as <-.
    apply assoc_last_distinct. reflexivity.
Qed.

Lemma config_keys_unique_witness :
  let cfg := config (VObj []) (VArr []) 2024 in
  unique_keys cfg = true
  /\ (forall k, assoc_last k (fields cfg) = get k cfg)
  /\ (forall k t, get "themeConfig" cfg = Some t ->
                  assoc_last k (fields t) = get k t).
Proof.
  apply (config_keys_unique (VObj []) (VArr []) 2024); reflexivity.
Defined.

(** X12: the edit links follow the repository the configuration names.  The
    docs and the blog of the classic preset share one [editUrl], and it lies
    under the GitHub tree of [organizationName]/[projectName]. *)
Theorem edit_urls_follow_repository (github dracula : value) (year : Z) :
  let cfg := config github dracula year in
  exists org project url,
    get "organizationName" cfg = Some (VStr org)
    /\ get "projectName" cfg = Some (VStr project)
    /\ get_path [Key "presets"; Idx 0; Idx 1; Key "docs"; Key "editUrl"] cfg
       = Some (VStr url)
    /\ get_path [Key "presets"; Idx 0; Idx 1; Key "blog"; Key "editUrl"] cfg
       = Some (VStr url)
    /\ String.prefix
         ("https://github.com/" ++ org ++ "/" ++ project ++ "/tree/main/") url
       = true.
Proof.
  cbv zeta. do 3 eexists.
  split; [reflexivity |]. split; [reflexivity |].
  split; [reflexivity |]. split; reflexivity.
Qed.
